(** * Ambient declarations of [Scene] and [BasePackage]

    The two source files,
    [src/foundry/client/data/documents/scene.d.mts] and the package
    declaration file (the one that declares [BasePackage]), are TypeScript
    declaration files: they hold type-level code only.  This development
    embeds them as they are written (every declaration, member, parameter,
    type expression and documentation comment), gives the type-level
    operators the declarations use their TypeScript meaning (indexed access
    on [this], [ReturnType], distributive conditional types, [never]), and
    proves the properties of the declared surface. *)

From Stdlib Require Import String Ascii List Bool ZArith Lia.
Import ListNotations.
Local Open Scope string_scope.
Local Open Scope list_scope.

Set Implicit Arguments.
Set Warnings "-register-all".

(* ===================================================================== *)
(** ** Syntax of the declaration files                                     *)
(* ===================================================================== *)

Module Syntax.

(** A possibly qualified name: [foundry.documents.BaseScene] is
    [["foundry"; "documents"; "BaseScene"]]. *)
Definition QName := list string.

(** A documentation comment, one string per line of the comment. *)
Definition Doc := list string.

(** The double quote character, for documentation lines that hold one. *)
Definition dquote : string := String "034"%char EmptyString.

Inductive Keyword : Type :=
| KNumber | KString | KBoolean | KVoid | KUnknown
| KNever | KNull | KUndefined | KObject.

(** Type expressions, constructor by constructor as the sources use them. *)
Inductive TypeExpr : Type :=
| TKeyword (k : Keyword)
| TThis
| TLitBool (b : bool)
| TLitNum (n : Z)
| TLitStr (s : string)
| TRef (name : QName) (args : list TypeExpr)
| TTypeof (name : QName)
| TIndex (obj key : TypeExpr)
| TArray (elem : TypeExpr)
| TTuple (elems : list TypeExpr)
| TUnion (alts : list TypeExpr)
| TInter (parts : list TypeExpr)
| TCond (check ext yes no : TypeExpr)
| TInfer (name : string)
| TFun (params : list (string * bool * TypeExpr)) (ret : TypeExpr)
| TObject (props : list (Doc * string * bool * TypeExpr)).

Definition tnumber := TKeyword KNumber.
Definition tstring := TKeyword KString.
Definition tboolean := TKeyword KBoolean.
Definition tvoid := TKeyword KVoid.
Definition tunknown := TKeyword KUnknown.
Definition tnever := TKeyword KNever.
Definition tnull := TKeyword KNull.
Definition tundefined := TKeyword KUndefined.
Definition tobject := TKeyword KObject.

(** [tname "X"] is the unqualified reference [X]; [tq] a qualified one;
    [tapp "F" [a]] is [F<a>]. *)
Definition tname (n : string) : TypeExpr := TRef [n] [].
Definition tq (q : QName) : TypeExpr := TRef q [].
Definition tapp (n : string) (args : list TypeExpr) : TypeExpr := TRef [n] args.
Definition tpromise (t : TypeExpr) : TypeExpr := tapp "Promise" [t].

(** [this["k"]] *)
Definition this_at (k : string) : TypeExpr := TIndex TThis (TLitStr k).

Record Param : Type := mkParam {
  p_doc : Doc;
  p_name : string;
  p_optional : bool;
  p_type : TypeExpr
}.

Record TypeParam : Type := mkTypeParam {
  tp_name : string;
  tp_constraint : option TypeExpr;
  tp_default : option TypeExpr
}.

Inductive Access : Type := Public | Protected | Private.

Inductive MemberKind : Type := Property | Getter | Method.

(** The statements of a method body.  A declaration file has none; the
    field is there so that this can be stated. *)
Definition Block := list string.

Record Member : Type := mkMember {
  m_doc : Doc;
  m_access : Access;
  m_static : bool;
  m_override : bool;
  m_kind : MemberKind;
  m_name : string;
  m_tparams : list TypeParam;
  m_params : list Param;
  m_type : option TypeExpr;
  m_body : option Block
}.

(** What follows [extends] in a class: a (generic) name, or a call of a
    mixin function on names. *)
Inductive Heritage : Type :=
| HName (name : QName) (targs : list TypeExpr)
| HCall (fn : QName) (args : list QName).

Inductive Export : Type := NotExported | Exported | ExportedDefault.

Record ClassDecl : Type := mkClass {
  c_doc : Doc;
  c_export : Export;
  c_name : string;
  c_extends : option Heritage;
  c_members : list Member
}.

Record InterfaceDecl : Type := mkInterface {
  i_doc : Doc;
  i_name : string;
  i_extends : list QName;
  i_props : list (Doc * string * bool * TypeExpr)
}.

Record AliasDecl : Type := mkAlias {
  a_doc : Doc;
  a_name : string;
  a_tparams : list TypeParam;
  a_type : TypeExpr
}.

Inductive Decl : Type :=
| DClass (c : ClassDecl)
| DInterface (i : InterfaceDecl)
| DAlias (a : AliasDecl)
| DNamespace (name : string) (body : list Decl)
| DGlobal (body : list Decl).

Inductive ImportKind : Type :=
| ImportNamed (names : list string)
| ImportDefault (name : string)
| ImportStar (name : string).

Record Import : Type := mkImport {
  imp_type_only : bool;
  imp_kind : ImportKind;
  imp_from : string
}.

Record SourceFile : Type := mkFile {
  sf_path : string;
  sf_imports : list Import;
  sf_decls : list Decl
}.

(** Builders for the three kinds of member.  A method or getter is given
    its body explicitly; [signature_only] is the body of a member that
    ends in [;]. *)
Definition signature_only : option Block := None.

Definition property (doc : Doc) (acc : Access) (static : bool)
    (name : string) (ty : TypeExpr) : Member :=
  mkMember doc acc static false Property name [] [] (Some ty) None.

Definition getter (doc : Doc) (acc : Access) (static : bool)
    (name : string) (ty : TypeExpr) (body : option Block) : Member :=
  mkMember doc acc static false Getter name [] [] (Some ty) body.

Definition method (doc : Doc) (acc : Access) (static override : bool)
    (name : string) (tps : list TypeParam) (ps : list Param)
    (ret : option TypeExpr) (body : option Block) : Member :=
  mkMember doc acc static override Method name tps ps ret body.

(** A parameter without a documentation comment of its own. *)
Definition param (name : string) (ty : TypeExpr) : Param :=
  mkParam [] name false ty.
Definition param_opt (name : string) (ty : TypeExpr) : Param :=
  mkParam [] name true ty.

(** A property of an object type or interface. *)
Definition req (doc : Doc) (name : string) (ty : TypeExpr)
  : Doc * string * bool * TypeExpr := (doc, name, false, ty).
Definition opt (doc : Doc) (name : string) (ty : TypeExpr)
  : Doc * string * bool * TypeExpr := (doc, name, true, ty).

End Syntax.
Export Syntax.

(* ===================================================================== *)
(** ** [src/foundry/client/data/documents/scene.d.mts]                     *)
(* ===================================================================== *)

Module SceneFile.

Definition BaseScene : QName := ["foundry"; "documents"; "BaseScene"].
Definition ConstructorData : TypeExpr :=
  tq ["foundry"; "documents"; "BaseScene"; "ConstructorData"].
Definition BaseUser : TypeExpr := tq ["foundry"; "documents"; "BaseUser"].
Definition DocumentModificationOptions : TypeExpr :=
  tname "DocumentModificationOptions".

(** The second parameter of [clone]:
    [InexactPartial<{ save: Save; keepId: boolean } & DocumentConstructionContext>] *)
Definition clone_context : TypeExpr :=
  tapp "InexactPartial"
    [TInter
       [TObject
          [req ["Save the clone to the World database?";
                "@defaultValue `false`"]
               "save" (tname "Save");
           req ["Keep the same ID of the original document";
                "@defaultValue `false`"]
               "keepId" tboolean];
        tname "DocumentConstructionContext"]].

(** [Save extends true ? Promise<this> : this] *)
Definition clone_return : TypeExpr :=
  TCond (tname "Save") (TLitBool true) (tpromise TThis) TThis.

Definition descendant_prefix : list Param :=
  [param "parent" (tname "ClientDocument");
   param "collection" tstring].

Definition Scene_members : list Member :=
  [ property
      ["Track the viewed position of each scene (while in memory only, not persisted)";
       "When switching back to a previously viewed scene, we can automatically pan to the previous position.";
       "@defaultValue `{}`";
       "@remarks This is intentionally public because it is used in Canvas._initializeCanvasPosition() and Canvas.pan()"]
      Public false "_viewPosition" (tname "CanvasViewPosition");
    property
      ["Track whether the scene is the active view"]
      Protected false "_view" (this_at "active");
    property
      ["Determine the canvas dimensions this Scene would occupy, if rendered";
       "@defaultValue `{}`"]
      Public false "dimensions" (tapp "ReturnType" [this_at "getDimensions"]);
    getter
      ["Provide a thumbnail image path used to represent this document."]
      Public false "thumbnail" (this_at "thumb") signature_only;
    getter
      ["A convenience accessor for whether the Scene is currently viewed"]
      Public false "isView" tboolean signature_only;
    method
      ["Set this scene as currently active";
       "@returns A Promise which resolves to the current scene once it has been successfully activated"]
      Public false false "activate" [] []
      (Some (tpromise (TUnion [TThis; tundefined]))) signature_only;
    method
      ["Set this scene as the current view"]
      Public false false "view" [] []
      (Some (tpromise (TUnion [TThis; tundefined]))) signature_only;
    method
      ["@param createData - (default: `{}`)";
       "@param options    - (default: `{}`)"]
      Public false true "clone"
      [mkTypeParam "Save" (Some tboolean) (Some (TLitBool false))]
      [param_opt "createData" ConstructorData;
       param_opt "context" clone_context]
      (Some clone_return) signature_only;
    method [] Public false true "reset" [] [] (Some tvoid) signature_only;
    method [] Public false true "prepareBaseData" [] [] (Some tvoid)
      signature_only;
    method
      ["Get the Canvas dimensions which would be used to display this Scene.";
       "Apply padding to enlarge the playable space and round to the nearest 2x grid size to ensure symmetry.";
       "The rounding accomplishes that the padding buffer around the map always contains whole grid spaces."]
      Public false false "getDimensions" [] []
      (Some (tname "SceneDimensions")) signature_only;
    method [] Public false true "_onClickDocumentLink" []
      [param "event" (tname "MouseEvent")]
      (Some tunknown) signature_only;
    method [] Protected false true "_preCreate" []
      [param "data" ConstructorData;
       param "options" DocumentModificationOptions;
       param "user" BaseUser]
      (Some (tpromise tvoid)) signature_only;
    method [] Protected false true "_onCreate" []
      [param "data" (this_at "_source");
       param "options" DocumentModificationOptions;
       param "userId" tstring]
      (Some tvoid) signature_only;
    method [] Protected false true "_preUpdate" []
      [param "changed" ConstructorData;
       param "options" DocumentModificationOptions;
       param "user" BaseUser]
      (Some (tpromise tvoid)) signature_only;
    method
      ["Handle repositioning of placed objects when the Scene dimensions change"]
      Protected false false "_repositionObject" []
      [param "sceneUpdateData" ConstructorData]
      (Some ConstructorData) signature_only;
    method [] Protected false true "_onUpdate" []
      [param "changed"
         (TInter [tapp "DeepPartial" [TIndex (tname "Scene") (TLitStr "_source")];
                  tapp "Record" [tstring; tunknown]]);
       param "options" DocumentModificationOptions;
       param "userId" tstring]
      (Some tvoid) signature_only;
    method [] Protected false true "_preDelete" []
      [param "options" DocumentModificationOptions;
       param "user" BaseUser]
      (Some (tpromise tvoid)) signature_only;
    method [] Protected false true "_onDelete" []
      [param "options" DocumentModificationOptions;
       param "userId" tstring]
      (Some tvoid) signature_only;
    method
      ["Handle Scene activation workflow if the active state is changed to true";
       "@param active - Is the scene now active?"]
      Protected false false "_onActivate" []
      [param "active" tboolean]
      (Some (TUnion [tapp "ReturnType" [this_at "view"];
                     tapp "ReturnType" [TIndex (tname "Canvas") (TLitStr "draw")]]))
      signature_only;
    method [] Public false true "_preCreateDescendantDocuments" []
      (descendant_prefix ++
       [param "data" (TArray tunknown);
        param "options" DocumentModificationOptions;
        param "userId" tstring])
      (Some tvoid) signature_only;
    method [] Public false true "_preUpdateDescendantDocuments" []
      (descendant_prefix ++
       [param "changes" (TArray tunknown);
        param "options" DocumentModificationOptions;
        param "userId" tstring])
      (Some tvoid) signature_only;
    method [] Public false true "_preDeleteDescendantDocuments" []
      (descendant_prefix ++
       [param "ids" (TArray tstring);
        param "options" DocumentModificationOptions;
        param "userId" tstring])
      (Some tvoid) signature_only;
    method [] Public false true "_onUpdateDescendantDocuments" []
      (descendant_prefix ++
       [param "documents" (TArray (tname "ClientDocument"));
        param "changes" (TArray tunknown);
        param "options" DocumentModificationOptions;
        param "userId" tstring])
      (Some tvoid) signature_only;
    method [] Public false true "toCompendium" []
      [param_opt "pack"
         (TUnion [tapp "CompendiumCollection"
                    [tq ["CompendiumCollection"; "Metadata"]];
                  tnull; tundefined]);
       param_opt "options"
         (TUnion [tq ["ClientDocument"; "CompendiumExportOptions"];
                  tundefined])]
      (Some
         (TInter
            [tapp "Omit"
               [TIndex (tname "Scene") (TLitStr "_source");
                TUnion [TLitStr "_id"; TLitStr "folder"; TLitStr "permission"]];
             TObject
               [opt [] "permission"
                  (TCond (tname "Scene")
                     (TObject [req [] "toObject" (TFun [] (TInfer "U"))])
                     (tname "U") tnever)]]))
      signature_only;
    method
      ["Create a 300px by 100px thumbnail image for this scene background";
       "@param data - (default: `{}`)";
       "@returns The created thumbnail data."]
      Public false false "createThumbnail" []
      [param_opt "data" (tapp "InexactPartial" [tname "ThumbnailCreationData"])]
      (Some (tapp "ReturnType"
               [TIndex (TTypeof ["ImageHelper"]) (TLitStr "createThumbnail")]))
      signature_only ].

Definition Scene : ClassDecl :=
  mkClass
    ["The client-side Scene document which extends the common BaseScene model.";
     "";
     "@see {@link Scenes}            The world-level collection of Scene documents";
     "@see {@link SceneConfig}       The Scene configuration application";
     ""]
    NotExported "Scene"
    (Some (HCall ["ClientDocumentMixin"] [BaseScene]))
    Scene_members.

Definition SceneDimensions : InterfaceDecl :=
  mkInterface [] "SceneDimensions" []
    [ req ["The width of the canvas."] "width" tnumber;
      req ["The height of the canvas."] "height" tnumber;
      req ["The grid size."] "size" tnumber;
      req ["The canvas rectangle."] "rect" (tname "Rectangle");
      req ["The X coordinate of the scene rectangle within the larger canvas."]
          "sceneX" tnumber;
      req ["The Y coordinate of the scene rectangle within the larger canvas."]
          "sceneY" tnumber;
      req ["The width of the scene."] "sceneWidth" tnumber;
      req ["The height of the scene."] "sceneHeight" tnumber;
      req ["The scene rectangle."] "sceneRect" (tname "Rectangle");
      req ["The number of distance units in a single grid space."]
          "distance" tnumber;
      req ["The aspect ratio of the scene rectangle."] "ratio" tnumber;
      req ["The length of the longest line that can be drawn on the canvas."]
          "maxR" tnumber ].

Definition ThumbnailCreationData : InterfaceDecl :=
  mkInterface [] "ThumbnailCreationData"
    [["ImageHelper"; "TextureToImageOptions"]]
    [ req ["A background image to use for thumbnail creation, otherwise the current scene";
           "background is used."]
          "img" tstring;
      req ["The desired thumbnail width. Default is 300px";
           "@defaultValue `300`"]
          "width" tnumber;
      req ["The desired thumbnail height. Default is 100px;";
           "@defaultValue `100`"]
          "height" tnumber;
      req ["Which image format should be used? image/png, image/jpg, or image/webp";
           ("@defaultValue `" ++ dquote ++ "image/webp" ++ dquote ++ "`")%string]
          "format"
          (TUnion [TLitStr "image/png"; TLitStr "image/jpg"; TLitStr "image/webp"]);
      req ["What compression quality should be used for jpeg or webp, between 0 and 1";
           "@defaultValue `0.8`"]
          "quality" tnumber ].

Definition file : SourceFile :=
  mkFile "src/foundry/client/data/documents/scene.d.mts"
    [ mkImport true (ImportNamed ["DeepPartial"; "InexactPartial"])
        "../../../../types/utils.d.mts";
      mkImport true (ImportNamed ["DocumentModificationOptions"])
        "../../../common/abstract/document.d.mts" ]
    [ DGlobal [DClass Scene; DInterface SceneDimensions];
      DInterface ThumbnailCreationData ].

End SceneFile.

(* ===================================================================== *)
(** ** The package declaration file (namespace and class [BasePackage])    *)
(* ===================================================================== *)

Module PackageFile.

Definition StringField : TypeExpr := tq ["fields"; "StringField"].
Definition SetField : TypeExpr := tq ["fields"; "SetField"].
Definition ObjectField : TypeExpr := tq ["fields"; "ObjectField"].
Definition BooleanField : TypeExpr := tq ["fields"; "BooleanField"].
Definition ColorField : TypeExpr := tq ["fields"; "ColorField"].
Definition AVAILABILITY_CODES : TypeExpr :=
  tq ["CONST"; "PACKAGE_AVAILABILITY_CODES"].
Definition PACKAGE_TYPES : TypeExpr := tq ["CONST"; "PACKAGE_TYPES"].

Definition PackageCompatibilitySchema : AliasDecl :=
  mkAlias [] "PackageCompatibilitySchema" []
    (TObject
       [ req [] "minimum" StringField;
         req [] "verified" StringField;
         req [] "maximum" StringField ]).

Definition PackageRelationshipsSchema : AliasDecl :=
  mkAlias [] "PackageRelationshipsSchema" []
    (TObject
       [ req [] "systems" SetField;
         req [] "requires" SetField;
         req [] "recommends" SetField;
         req [] "conflicts" SetField;
         req [] "flags" ObjectField ]).

Definition RelatedPackageSchema : AliasDecl :=
  mkAlias [] "RelatedPackageSchema" []
    (TObject
       [ req [] "id" StringField;
         req [] "type" StringField;
         req [] "manifest" StringField;
         req [] "compatibility" (tname "PackageCompatibility");
         req [] "reason" StringField ]).

(** [type RecursiveDepth = [never, 0, 1, 2, 3]] (under a line comment
    [// TODO: Figure out proper recursion here]). *)
Definition RecursiveDepth : AliasDecl :=
  mkAlias [] "RecursiveDepth" []
    (TTuple [tnever; TLitNum 0; TLitNum 1; TLitNum 2; TLitNum 3]).

(** [| { name; sorting; color; packs } | Depth extends 0 ? {} : { folders }]:
    the union binds tighter than the conditional, so the whole union is
    the checked type. *)
Definition PackageCompendiumFolderSchema : AliasDecl :=
  mkAlias [] "PackageCompendiumFolderSchema"
    [mkTypeParam "Depth" (Some tnumber) None]
    (TCond
       (TUnion
          [TObject
             [ req [] "name" StringField;
               req [] "sorting" StringField;
               req [] "color" ColorField;
               req [] "packs" SetField ];
           tname "Depth"])
       (TLitNum 0)
       (TObject [])
       (TObject [req [] "folders" SetField])).

Definition Schema : AliasDecl :=
  mkAlias [] "Schema" []
    (TObject
       [ req [] "id" StringField;
         req [] "title" StringField;
         req [] "description" StringField;
         req [] "authors" SetField;
         req [] "url" StringField;
         req [] "license" StringField;
         req [] "readme" StringField;
         req [] "bugs" StringField;
         req [] "changelog" StringField;
         req [] "flags" ObjectField;
         req [] "media" SetField;
         req [] "version" StringField;
         req [] "compatibility" (tname "PackageCompatibility");
         req [] "scripts" SetField;
         req [] "esmodules" SetField;
         req [] "styles" SetField;
         req [] "languages" SetField;
         req [] "packs" (tname "PackageCompendiumPacks");
         req [] "packFolders" SetField;
         req [] "relationships" (tname "PackageRelationships");
         req [] "socket" BooleanField;
         req [] "manifest" StringField;
         req [] "download" StringField;
         req [] "protected" BooleanField;
         req [] "exclusive" BooleanField;
         req [] "persistentStorage" BooleanField ]).

Definition PackageManifestData : AliasDecl :=
  mkAlias [] "PackageManifestData" []
    (TObject
       [ req [] "availability" AVAILABILITY_CODES;
         req [] "locked" tboolean;
         req [] "exclusive" tboolean;
         req [] "owned" tboolean;
         req [] "tags" (TArray tstring);
         req [] "hasStorage" tboolean ]).

Definition BasePackage_namespace : Decl :=
  DNamespace "BasePackage"
    [ DAlias PackageCompatibilitySchema;
      DAlias PackageRelationshipsSchema;
      DAlias RelatedPackageSchema;
      DAlias RecursiveDepth;
      DAlias PackageCompendiumFolderSchema;
      DAlias Schema;
      DAlias PackageManifestData ].

(** [fields.SchemaField<BasePackage.X>] *)
Definition SchemaField_of (x : string) : Heritage :=
  HName ["fields"; "SchemaField"] [tq ["BasePackage"; x]].

Definition PackageCompatibility : ClassDecl :=
  mkClass
    ["A custom SchemaField for defining package compatibility versions.";
     "@property {string} minimum     The Package will not function before this version";
     "@property {string} verified    Verified compatible up to this version";
     "@property {string} maximum     The Package will not function after this version"]
    Exported "PackageCompatibility"
    (Some (SchemaField_of "PackageCompatibilitySchema")) [].

Definition PackageRelationships : ClassDecl :=
  mkClass
    ["A custom SchemaField for defining package relationships.";
     "@property {RelatedPackage[]} systems     Systems that this Package supports";
     "@property {RelatedPackage[]} requires    Packages that are required for base functionality";
     "@property {RelatedPackage[]} recommends  Packages that are recommended for optimal functionality"]
    Exported "PackageRelationships"
    (Some (SchemaField_of "PackageRelationshipsSchema")) [].

Definition RelatedPackage : ClassDecl :=
  mkClass
    ["A custom SchemaField for defining a related Package.";
     "It may be required to be a specific type of package, by passing the packageType option to the constructor."]
    Exported "RelatedPackage"
    (Some (SchemaField_of "RelatedPackageSchema")) [].

Definition PackageCompendiumFolder : ClassDecl :=
  mkClass
    ["A custom SchemaField for defining the folder structure of the included compendium packs."]
    Exported "PackageCompendiumFolder"
    (Some (HName ["fields"; "SchemaField"]
             [TRef ["BasePackage"; "PackageCompendiumFolderSchema"] [TLitNum 4]]))
    [].

Definition CompendiumOwnershipField : ClassDecl :=
  mkClass
    ["A special ObjectField which captures a mapping of USER_ROLES to DOCUMENT_OWNERSHIP_LEVELS."]
    Exported "CompendiumOwnershipField"
    (Some (HName ["fields"; "ObjectField"] [])) [].

Definition PackageCompendiumPacks : ClassDecl :=
  mkClass
    ["A special SetField which provides additional validation and initialization behavior specific to compendium packs."]
    Exported "PackageCompendiumPacks"
    (Some (HName ["fields"; "SetField"] [])) [].

(** [Parameters<typeof BasePackage._logWarning>[2]] *)
Definition logOptions_type : TypeExpr :=
  TIndex (tapp "Parameters" [TTypeof ["BasePackage"; "_logWarning"]])
         (TLitNum 2).

Definition migration (name : string) : Member :=
  method [] Protected true false name []
    [param "data" tobject; param "logOptions" logOptions_type]
    (Some tvoid) signature_only.

Definition BasePackage_members : list Member :=
  [ property
      ["An availability code in PACKAGE_AVAILABILITY_CODES which defines whether this package can be used."]
      Public false "availability" AVAILABILITY_CODES;
    property
      ["A flag which tracks whether this package is currently locked.";
       "@defaultValue `false`"]
      Public false "locked" tboolean;
    property
      ["A flag which tracks whether this package is a free Exclusive pack";
       "@defaultValue `false`"]
      Public false "exclusive" tboolean;
    property
      ["A flag which tracks whether this package is owned, if it is protected.";
       "@defaultValue `false`"]
      Public false "owned" tboolean;
    property
      ["A set of Tags that indicate what kind of Package this is, provided by the Website";
       "@defaultValue `[]`"]
      Public false "tags" (TArray tstring);
    property
      ["Define the package type in CONST.PACKAGE_TYPES that this class represents.";
       "Each BasePackage subclass must define this attribute.";
       "@virtual"]
      Public true "type" PACKAGE_TYPES;
    getter
      ["The type of this package instance. A value in CONST.PACKAGE_TYPES."]
      Public false "type" PACKAGE_TYPES signature_only;
    getter
      ["The canonical identifier for this package";
       ("@deprecated " ++ dquote
        ++ "You are accessing BasePackage#name which is now deprecated in favor of id."
        ++ dquote)%string]
      Public false "name" (this_at "id") signature_only;
    getter
      ["A flag which defines whether this package is unavailable to be used."]
      Public false "unavailable" tboolean signature_only;
    method
      ["Test if a given availability is incompatible with the core version.";
       "@param availability - The availability value to test."]
      Public true false "isIncompatibleWithCoreVersion" []
      [param "availability" AVAILABILITY_CODES]
      (Some tboolean) signature_only;
    getter
      ["The named collection to which this package type belongs"]
      Public true "collection"
      (TUnion [TLitStr "worlds"; TLitStr "systems"; TLitStr "modules"])
      signature_only;
    method [] Public true false "defineSchema" [] []
      (Some (tq ["BasePackage"; "Schema"])) signature_only;
    method [] Public true false "testAvailability" []
      [param "data" (tapp "Partial" [tq ["BasePackage"; "PackageManifestData"]]);
       param "options"
         (tapp "InexactPartial"
            [TObject
               [req ["A specific software release for which to test availability.";
                     "Tests against the current release by default."]
                    "release" (tname "ReleaseData")]])]
      (Some AVAILABILITY_CODES) signature_only;
    method
      ["Test that the dependencies of a package are satisfied as compatible.";
       "This method assumes that all packages in modulesCollection have already had their own availability tested.";
       "@param modulesCollection - A collection which defines the set of available modules";
       "@returns Are all required dependencies satisfied?"]
      Public false false "_testRequiredDependencies" []
      [param "modulesCollection" (tapp "Collection" [tname "Module"])]
      (Some (tpromise tboolean)) signature_only;
    method
      ["Test compatibility of a package's supported systems.";
       "@param systemCollection - A collection which defines the set of available systems.";
       "@returns True if all supported systems which are currently installed";
       "         are compatible or if the package has no supported systems.";
       "         Returns false otherwise, or if no supported systems are installed."]
      Public false false "_testSupportedSystems" []
      [param "systemCollection" (tapp "Collection" [tname "System"])]
      (Some (tpromise tboolean)) signature_only;
    method
      ["Determine if a dependency is within the given compatibility range.";
       "@param compatibility - The compatibility range declared for the dependency, if any";
       "@param dependency    - The known dependency package";
       "@returns Is the dependency compatible with the required range?"]
      Public true false "testDependencyCompatibility" []
      [param "compatibility" (tname "PackageCompatibility");
       param "dependency" (tname "BasePackage")]
      (Some tboolean) signature_only;
    method [] Public true false "cleanData" []
      [param_opt "source" (TUnion [tobject; tundefined]);
       param_opt "options"
         (TUnion [tq ["fields"; "DataField"; "CleanOptions"]; tundefined])]
      (Some tobject) signature_only;
    method
      ["Validate that a Package ID is allowed.";
       "@param id - The candidate ID";
       "@throws An error if the candidate ID is invalid"]
      Public true false "validateId" []
      [param "id" tstring]
      (Some tvoid) signature_only;
    method
      [" A wrapper around the default compatibility warning logger which handles some package-specific interactions.";
       "@param packageId - The package ID being logged";
       "@param message   - The warning or error being logged";
       "@param options   - Logging options passed to foundry.utils.logCompatibilityWarning"]
      Protected true false "_logWarning" []
      [param "packageId" tstring;
       param "message" tstring;
       param "options"
         (tapp "InexactPartial"
            [TUnion
               [TObject [req ["Is the package installed?"] "installed" tunknown];
                tname "LogCompatibilityWarningOptions"]])]
      None signature_only;
    method [] Public true false "migrateData" []
      [param "data" tobject;
       param "logOptions"
         (tapp "InexactPartial" [TObject [req [] "installed" tboolean]])]
      (Some tobject) signature_only;
    migration "_migrateNameToId";
    migration "_migrateDependenciesNameToId";
    migration "_migrateToRelationships";
    migration "_migrateCompatibility";
    migration "_migrateMediaURL";
    migration "_migrateOwnership";
    method
      ["Retrieve the latest Package manifest from a provided remote location.";
       "@param manifestUrl - A remote manifest URL to load";
       "@param options     - Additional options which affect package construction";
       "@returns A Promise which resolves to a constructed ServerPackage instance";
       "@throws An error if the retrieved manifest data is invalid"]
      Public true false "fromRemoteManifest" []
      [param "manifestUrl" tstring;
       param "options"
         (TObject
            [req ["Whether to construct the remote package strictly";
                  "@defaultValue `true`"]
                 "strict" tboolean])]
      (Some (tpromise tnever)) signature_only ].

Definition BasePackage : ClassDecl :=
  mkClass
    ["The data schema used to define a Package manifest.";
     "Specific types of packages extend this schema with additional fields."]
    ExportedDefault "BasePackage"
    (Some (HName ["DataModel"]
             [TRef ["fields"; "SchemaField"] [tq ["BasePackage"; "Schema"]];
              tnull]))
    BasePackage_members.

Definition file : SourceFile :=
  mkFile "unnamed/part_000"
    [ mkImport true (ImportNamed ["InexactPartial"]) "../../../types/utils.d.mts";
      mkImport true (ImportDefault "DataModel") "../abstract/data.mjs";
      mkImport true (ImportNamed ["ReleaseData"]) "../config.mjs/releaseData.d.mts";
      mkImport false (ImportStar "fields") "../data/fields.mjs";
      mkImport true (ImportNamed ["CONST"]) "../module.d.mts";
      mkImport false (ImportNamed ["LogCompatibilityWarningOptions"])
        "../utils/logging.d.mts" ]
    [ BasePackage_namespace;
      DClass PackageCompatibility;
      DClass PackageRelationships;
      DClass RelatedPackage;
      DClass PackageCompendiumFolder;
      DClass CompendiumOwnershipField;
      DClass PackageCompendiumPacks;
      DClass BasePackage ].

End PackageFile.

(** The repository: its two source files. *)
Definition repository : list SourceFile := [SceneFile.file; PackageFile.file].

(* ===================================================================== *)
(** ** Reading the declarations                                            *)
(* ===================================================================== *)

Module Decls.

Definition qname_eqb (a b : QName) : bool :=
  if list_eq_dec string_dec a b then true else false.

(** A declaration together with everything nested in it. *)
Fixpoint flatten (d : Decl) : list Decl :=
  match d with
  | DNamespace _ body => d :: flat_map flatten body
  | DGlobal body => d :: flat_map flatten body
  | _ => [d]
  end.

Definition all_decls (f : SourceFile) : list Decl :=
  flat_map flatten (sf_decls f).

Definition classes (f : SourceFile) : list ClassDecl :=
  flat_map (fun d => match d with DClass c => [c] | _ => [] end) (all_decls f).

Definition interfaces (f : SourceFile) : list InterfaceDecl :=
  flat_map (fun d => match d with DInterface i => [i] | _ => [] end)
           (all_decls f).

Definition repo_classes : list ClassDecl := flat_map classes repository.

(** Does declaration [d] declare something reachable as [q]?  A name
    inside [namespace N] is reachable as [N.name]; what [declare global]
    holds is reachable unqualified. *)
Fixpoint decl_declares (d : Decl) (q : QName) : bool :=
  match d with
  | DClass c => qname_eqb q [c_name c]
  | DInterface i => qname_eqb q [i_name i]
  | DAlias a => qname_eqb q [a_name a]
  | DNamespace n body =>
      match q with
      | [] => false
      | h :: rest =>
          String.eqb h n
          && match rest with
             | [] => true
             | _ => existsb (fun d' => decl_declares d' rest) body
             end
      end
  | DGlobal body => existsb (fun d' => decl_declares d' q) body
  end.

Definition declares (f : SourceFile) (q : QName) : bool :=
  existsb (fun d => decl_declares d q) (sf_decls f).

(** Is [q], or the namespace it starts from, declared in the repository? *)
Definition declared_in_repository (q : QName) : bool :=
  existsb (fun f => declares f q || declares f (firstn 1 q)) repository.

Definition import_binds (i : Import) : list string :=
  match imp_kind i with
  | ImportNamed ns => ns
  | ImportDefault n => [n]
  | ImportStar n => [n]
  end.

(** The module a file imports the root identifier of [q] from, if any. *)
Definition imported_from (f : SourceFile) (q : QName) : option string :=
  match q with
  | [] => None
  | h :: _ =>
      option_map imp_from
        (find (fun i => existsb (String.eqb h) (import_binds i)) (sf_imports f))
  end.

(** The names an [extends] clause mentions. *)
Definition heritage_names (h : Heritage) : list QName :=
  match h with
  | HName q _ => [q]
  | HCall fn args => fn :: args
  end.

(** The bases the classes of the repository extend:
    [ClientDocumentMixin(foundry.documents.BaseScene)], [DataModel<...>],
    or a class of the [fields] module. *)
Definition known_base (h : Heritage) : bool :=
  match h with
  | HCall fn args =>
      qname_eqb fn ["ClientDocumentMixin"]
      && (if list_eq_dec (list_eq_dec string_dec) args
               [["foundry"; "documents"; "BaseScene"]]
          then true else false)
  | HName q _ =>
      qname_eqb q ["DataModel"]
      || match q with
         | [m; _] => String.eqb m "fields"
         | _ => false
         end
  end.

(** A class extends a base that no file of the repository declares. *)
Definition extends_external (c : ClassDecl) : bool :=
  match c_extends c with
  | None => false
  | Some h =>
      known_base h
      && forallb (fun q => negb (declared_in_repository q)) (heritage_names h)
  end.

Definition has_body (m : Member) : bool :=
  match m_body m with Some _ => true | None => false end.

Definition is_callable (m : Member) : bool :=
  match m_kind m with Property => false | _ => true end.

(** First member of that name on the static or on the instance side. *)
Definition find_member (static : bool) (name : string) (c : ClassDecl)
  : option Member :=
  find (fun m => Bool.eqb (m_static m) static && String.eqb (m_name m) name)
       (c_members c).

Definition prop_name (p : Doc * string * bool * TypeExpr) : string :=
  match p with (_, n, _, _) => n end.
Definition prop_doc (p : Doc * string * bool * TypeExpr) : Doc :=
  match p with (d, _, _, _) => d end.
Definition prop_optional (p : Doc * string * bool * TypeExpr) : bool :=
  match p with (_, _, o, _) => o end.
Definition prop_type (p : Doc * string * bool * TypeExpr) : TypeExpr :=
  match p with (_, _, _, t) => t end.

(** The properties of an object type, [(name, type)] in source order. *)
Definition shape (t : TypeExpr) : list (string * TypeExpr) :=
  match t with
  | TObject props => map (fun p => (prop_name p, prop_type p)) props
  | _ => []
  end.

Definition find_prop (name : string) (t : TypeExpr)
  : option (Doc * string * bool * TypeExpr) :=
  match t with
  | TObject props => find (fun p => String.eqb (prop_name p) name) props
  | _ => None
  end.

(** The alias [BasePackage.<name>] of the package file. *)
Definition namespace_alias (name : string) : option AliasDecl :=
  match PackageFile.BasePackage_namespace with
  | DNamespace _ body =>
      match find (fun d => match d with
                           | DAlias a => String.eqb (a_name a) name
                           | _ => false
                           end) body with
      | Some (DAlias a) => Some a
      | _ => None
      end
  | _ => None
  end.

(** The schema a field of [BasePackage.Schema] stands for: the field's type
    names a class of the file, the class extends
    [fields.SchemaField<BasePackage.S>], and [S] is an alias of the
    namespace. *)
Definition sub_schema (field : string) : option TypeExpr :=
  match find_prop field (a_type PackageFile.Schema) with
  | Some (_, _, _, TRef [cls] []) =>
      match find (fun c => String.eqb (c_name c) cls)
                 (classes PackageFile.file) with
      | Some c =>
          match c_extends c with
          | Some (HName base [TRef [ns; s] []]) =>
              if qname_eqb base ["fields"; "SchemaField"]
                 && String.eqb ns "BasePackage"
              then option_map a_type (namespace_alias s)
              else None
          | _ => None
          end
      | None => None
      end
  | _ => None
  end.

(** A class of the repository, by name. *)
Definition find_class (name : string) : option ClassDecl :=
  find (fun c => String.eqb (c_name c) name) repo_classes.

Definition find_interface (name : string) : option InterfaceDecl :=
  find (fun i => String.eqb (i_name i) name) (flat_map interfaces repository).

(** The lines of a documentation comment that start with a tag. *)
Definition doc_tags (tag : string) (doc : Doc) : list string :=
  filter (String.prefix tag) doc.

(** The declared type of a member of a class of the repository. *)
Definition declared_type (static : bool) (cls name : string)
  : option TypeExpr :=
  match find_class cls with
  | Some c =>
      match find_member static name c with
      | Some m => m_type m
      | None => None
      end
  | None => None
  end.

End Decls.
Export Decls.

(* ===================================================================== *)
(** ** Meaning of the type-level operators the declarations use            *)
(* ===================================================================== *)

Module TypeLevel.

(** The type of [this], as far as a declaration can see it: the type of
    each property.  What a class inherits from a base declared elsewhere
    is a parameter. *)
Definition ThisType := string -> option TypeExpr.

(** The type a member has when read as a property: a method is a
    function. *)
Definition member_type (m : Member) : option TypeExpr :=
  match m_kind m with
  | Method =>
      option_map
        (TFun (map (fun p => (p_name p, p_optional p, p_type p)) (m_params m)))
        (m_type m)
  | _ => m_type m
  end.

(** Instance side of a class: its own members first, then the base's. *)
Definition class_this (c : ClassDecl) (inherited : ThisType) : ThisType :=
  fun k =>
    match find_member false k c with
    | Some m => member_type m
    | None => inherited k
    end.

(** [this["k"]] and [ReturnType<F>] evaluated against the type of
    [this]; anything else is left as written. *)
Fixpoint resolve (self : ThisType) (t : TypeExpr) : TypeExpr :=
  match t with
  | TIndex TThis (TLitStr k) =>
      match self k with
      | Some ty => ty
      | None => t
      end
  | TRef name [a] =>
      if qname_eqb name ["ReturnType"]
      then match resolve self a with
           | TFun _ r => r
           | a' => TRef name [a']
           end
      else t
  | _ => t
  end.

Definition keyword_eqb (a b : Keyword) : bool :=
  match a, b with
  | KNumber, KNumber | KString, KString | KBoolean, KBoolean
  | KVoid, KVoid | KUnknown, KUnknown | KNever, KNever
  | KNull, KNull | KUndefined, KUndefined | KObject, KObject => true
  | _, _ => false
  end.

(** Identity of type expressions (documentation comments of object
    properties are not compared). *)
Fixpoint type_eqb (a b : TypeExpr) {struct a} : bool :=
  let all2 :=
    fix all2 (l l' : list TypeExpr) {struct l} : bool :=
      match l, l' with
      | [], [] => true
      | x :: xs, y :: ys => type_eqb x y && all2 xs ys
      | _, _ => false
      end in
  match a, b with
  | TKeyword k, TKeyword k' => keyword_eqb k k'
  | TThis, TThis => true
  | TLitBool x, TLitBool y => Bool.eqb x y
  | TLitNum x, TLitNum y => Z.eqb x y
  | TLitStr x, TLitStr y => String.eqb x y
  | TRef n l, TRef n' l' => qname_eqb n n' && all2 l l'
  | TTypeof n, TTypeof n' => qname_eqb n n'
  | TIndex o k, TIndex o' k' => type_eqb o o' && type_eqb k k'
  | TArray e, TArray e' => type_eqb e e'
  | TTuple l, TTuple l' => all2 l l'
  | TUnion l, TUnion l' => all2 l l'
  | TInter l, TInter l' => all2 l l'
  | TCond c e y n, TCond c' e' y' n' =>
      type_eqb c c' && type_eqb e e' && type_eqb y y' && type_eqb n n'
  | TInfer x, TInfer y => String.eqb x y
  | TFun ps r, TFun ps' r' =>
      (fix params (l l' : list (string * bool * TypeExpr)) {struct l} : bool :=
         match l, l' with
         | [], [] => true
         | (n, o, t) :: xs, (n', o', t') :: ys =>
             String.eqb n n' && Bool.eqb o o' && type_eqb t t' && params xs ys
         | _, _ => false
         end) ps ps'
      && type_eqb r r'
  | TObject ps, TObject ps' =>
      (fix props (l l' : list (Doc * string * bool * TypeExpr)) {struct l}
         : bool :=
         match l, l' with
         | [], [] => true
         | (_, n, o, t) :: xs, (_, n', o', t') :: ys =>
             String.eqb n n' && Bool.eqb o o' && type_eqb t t' && props xs ys
         | _, _ => false
         end) ps ps'
  | _, _ => false
  end.

(** Substitution of a type argument for a type parameter. *)
Fixpoint subst (x : string) (arg : TypeExpr) (t : TypeExpr) : TypeExpr :=
  match t with
  | TRef name args =>
      if qname_eqb name [x]
      then match args with [] => arg | _ => t end
      else TRef name (map (subst x arg) args)
  | TIndex o k => TIndex (subst x arg o) (subst x arg k)
  | TArray e => TArray (subst x arg e)
  | TTuple l => TTuple (map (subst x arg) l)
  | TUnion l => TUnion (map (subst x arg) l)
  | TInter l => TInter (map (subst x arg) l)
  | TCond c e y n =>
      TCond (subst x arg c) (subst x arg e) (subst x arg y) (subst x arg n)
  | TFun ps r =>
      TFun (map (fun p => match p with (n, o, ty) => (n, o, subst x arg ty) end) ps)
           (subst x arg r)
  | TObject ps =>
      TObject (map (fun p => match p with
                             | (d, n, o, ty) => (d, n, o, subst x arg ty)
                             end) ps)
  | _ => t
  end.

(** The members of a union type; [boolean] is the union of its two
    literal types and [never] is the empty union. *)
Fixpoint constituents (t : TypeExpr) : list TypeExpr :=
  match t with
  | TKeyword KNever => []
  | TKeyword KBoolean => [TLitBool false; TLitBool true]
  | TUnion l => flat_map constituents l
  | _ => [t]
  end.

Fixpoint add_type (t : TypeExpr) (l : list TypeExpr) : list TypeExpr :=
  match l with
  | [] => [t]
  | u :: rest => if type_eqb t u then l else u :: add_type t rest
  end.

(** The union of a list of types: repeated members are kept once, the
    empty union is [never], a union of one member is that member. *)
Definition union_of (l : list TypeExpr) : TypeExpr :=
  match fold_left (fun acc t => add_type t acc) (l) [] with
  | [] => tnever
  | [t] => t
  | ts => TUnion ts
  end.

(** [s extends t] where literal and keyword types decide it; [None] where
    the answer depends on types declared elsewhere. *)
Definition assignable (s t : TypeExpr) : option bool :=
  if type_eqb s t then Some true
  else
    match s, t with
    | _, TKeyword KUnknown => Some true
    | TKeyword KNever, _ => Some true
    | TLitBool _, TKeyword KBoolean => Some true
    | TLitBool _, TLitBool _ => Some false
    | TKeyword KBoolean, TLitBool _ => Some false
    | TLitNum _, TKeyword KNumber => Some true
    | TLitNum _, TLitNum _ => Some false
    | TLitStr _, TKeyword KString => Some true
    | TLitStr _, TLitStr _ => Some false
    | _, _ => None
    end.

(** [c extends e ? y : n] once [c] and [e] are known; an undecided
    conditional stays as it is. *)
Definition reduce_cond (c e y n : TypeExpr) : TypeExpr :=
  match assignable c e with
  | Some true => y
  | Some false => n
  | None => TCond c e y n
  end.

(** A type that mentions the type parameter [x], at the type argument
    [arg].  A conditional type whose checked type is the parameter itself
    is distributive: it is evaluated at each union member of the argument
    and the results are united. *)
Definition instantiate (x : string) (arg t : TypeExpr) : TypeExpr :=
  match t with
  | TCond c e y n =>
      if type_eqb c (tname x)
      then union_of
             (map (fun a => reduce_cond a (subst x a e) (subst x a y) (subst x a n))
                  (constituents arg))
      else reduce_cond (subst x arg c) (subst x arg e)
                       (subst x arg y) (subst x arg n)
  | _ => subst x arg t
  end.

(** May [arg] be passed for the (single) type parameter of [m]? *)
Definition accepts (m : Member) (arg : TypeExpr) : bool :=
  match m_tparams m with
  | [tp] =>
      match tp_constraint tp with
      | Some c => match assignable arg c with Some b => b | None => false end
      | None => true
      end
  | _ => false
  end.

(** The declared result of a member with one type parameter, at a type
    argument, and at the parameter's default. *)
Definition result_at (m : Member) (arg : TypeExpr) : option TypeExpr :=
  match m_tparams m, m_type m with
  | [tp], Some r => Some (instantiate (tp_name tp) arg r)
  | _, _ => None
  end.

Definition result_at_default (m : Member) : option TypeExpr :=
  match m_tparams m with
  | [tp] =>
      match tp_default tp with
      | Some d => result_at m d
      | None => None
      end
  | _ => None
  end.

(** *** Values and promises *)

Inductive Value : Type :=
| VUndefined
| VNull
| VBool (b : bool)
| VNum (n : Z)
| VStr (s : string)
| VArr (items : list Value)
| VObj (tag : string).

(** Does a value have a type?  Keyword, literal, array, union and
    intersection types are decided here; a type declared elsewhere (a
    reference, [this], an indexed access, ...) is decided by [ext]. *)
Fixpoint conforms (ext : TypeExpr -> Value -> bool) (t : TypeExpr)
    (v : Value) {struct t} : bool :=
  match t with
  | TKeyword KNever => false
  | TKeyword KUnknown => true
  | TKeyword KNumber => match v with VNum _ => true | _ => false end
  | TKeyword KString => match v with VStr _ => true | _ => false end
  | TKeyword KBoolean => match v with VBool _ => true | _ => false end
  | TKeyword KVoid => match v with VUndefined => true | _ => false end
  | TKeyword KUndefined => match v with VUndefined => true | _ => false end
  | TKeyword KNull => match v with VNull => true | _ => false end
  | TKeyword KObject =>
      match v with VObj _ | VArr _ => true | _ => false end
  | TLitBool b => match v with VBool b' => Bool.eqb b b' | _ => false end
  | TLitNum n => match v with VNum n' => Z.eqb n n' | _ => false end
  | TLitStr s => match v with VStr s' => String.eqb s s' | _ => false end
  | TArray e =>
      match v with
      | VArr items => forallb (conforms ext e) items
      | _ => false
      end
  | TUnion l => existsb (fun u => conforms ext u v) l
  | TInter l => forallb (fun u => conforms ext u v) l
  | _ => ext t v
  end.

(** The states of a promise. *)
Inductive PromiseState : Type :=
| Pending
| Fulfilled (value : Value)
| Rejected (reason : Value).

(** A promise state has type [Promise<T>] when a fulfilled value has
    type [T]; pending and rejected promises carry no value of [T]. *)
Definition promise_conforms (ext : TypeExpr -> Value -> bool)
    (t : TypeExpr) (p : PromiseState) : bool :=
  match t with
  | TRef name [a] =>
      qname_eqb name ["Promise"]
      && match p with
         | Fulfilled v => conforms ext a v
         | _ => true
         end
  | _ => false
  end.

End TypeLevel.
Export TypeLevel.


(* ===================================================================== *)
(** ** References between declarations                                     *)
(* ===================================================================== *)

Module References.

(** The type names a type expression refers to.  [typeof X.m] refers to a
    value and is collected by [value_refs]. *)
Fixpoint type_refs (t : TypeExpr) : list QName :=
  match t with
  | TRef name args => name :: flat_map type_refs args
  | TIndex o k => type_refs o ++ type_refs k
  | TArray e => type_refs e
  | TTuple l => flat_map type_refs l
  | TUnion l => flat_map type_refs l
  | TInter l => flat_map type_refs l
  | TCond c e y n => type_refs c ++ type_refs e ++ type_refs y ++ type_refs n
  | TFun ps r =>
      flat_map (fun p => match p with (_, _, ty) => type_refs ty end) ps
      ++ type_refs r
  | TObject ps =>
      flat_map (fun p => match p with (_, _, _, ty) => type_refs ty end) ps
  | _ => []
  end.

Fixpoint value_refs (t : TypeExpr) : list QName :=
  match t with
  | TTypeof name => [name]
  | TRef _ args => flat_map value_refs args
  | TIndex o k => value_refs o ++ value_refs k
  | TArray e => value_refs e
  | TTuple l => flat_map value_refs l
  | TUnion l => flat_map value_refs l
  | TInter l => flat_map value_refs l
  | TCond c e y n =>
      value_refs c ++ value_refs e ++ value_refs y ++ value_refs n
  | TFun ps r =>
      flat_map (fun p => match p with (_, _, ty) => value_refs ty end) ps
      ++ value_refs r
  | TObject ps =>
      flat_map (fun p => match p with (_, _, _, ty) => value_refs ty end) ps
  | _ => []
  end.

Definition opt_types (o : option TypeExpr) : list TypeExpr :=
  match o with Some t => [t] | None => [] end.

Definition tparam_types (tp : TypeParam) : list TypeExpr :=
  opt_types (tp_constraint tp) ++ opt_types (tp_default tp).

(** Every type expression a member is written with. *)
Definition member_types (m : Member) : list TypeExpr :=
  flat_map tparam_types (m_tparams m)
  ++ map p_type (m_params m)
  ++ opt_types (m_type m).

Definition heritage_types (h : Heritage) : list TypeExpr :=
  match h with
  | HName _ targs => targs
  | HCall _ _ => []
  end.

(** Every type expression of a declaration and of what it contains. *)
Fixpoint decl_types (d : Decl) : list TypeExpr :=
  match d with
  | DClass c =>
      match c_extends c with
      | Some h => heritage_types h
      | None => []
      end
      ++ flat_map member_types (c_members c)
  | DInterface i => map prop_type (i_props i)
  | DAlias a => flat_map tparam_types (a_tparams a) ++ [a_type a]
  | DNamespace _ body => flat_map decl_types body
  | DGlobal body => flat_map decl_types body
  end.

(** The names the [extends] clauses of a declaration mention. *)
Fixpoint decl_heritage (d : Decl) : list QName :=
  match d with
  | DClass c =>
      match c_extends c with
      | Some h => heritage_names h
      | None => []
      end
  | DInterface i => i_extends i
  | DAlias _ => []
  | DNamespace _ body => flat_map decl_heritage body
  | DGlobal body => flat_map decl_heritage body
  end.

(** The type names a file refers to, in types and [extends] clauses. *)
Definition file_type_refs (f : SourceFile) : list QName :=
  flat_map type_refs (flat_map decl_types (sf_decls f)).

Definition file_value_refs (f : SourceFile) : list QName :=
  flat_map value_refs (flat_map decl_types (sf_decls f)).

(** Every name a file mentions, whatever the position. *)
Definition file_refs (f : SourceFile) : list QName :=
  flat_map decl_heritage (sf_decls f)
  ++ file_type_refs f ++ file_value_refs f.

(** The identifier a qualified name starts from. *)
Definition root (q : QName) : option string := hd_error q.

Definition mentions_root (f : SourceFile) (n : string) : bool :=
  existsb (fun q => match root q with
                    | Some r => String.eqb r n
                    | None => false
                    end) (file_refs f).

(** The names a file imports without mentioning them. *)
Definition unused_imports (f : SourceFile) : list string :=
  filter (fun n => negb (mentions_root f n))
         (flat_map import_binds (sf_imports f)).

(** The references of a file to names that start in a declaration of the
    repository. *)
Definition internal_refs (f : SourceFile) : list QName :=
  filter (fun q => existsb (fun g => declares g (firstn 1 q)) repository) (file_type_refs f).

End References.
Export References.

(* ===================================================================== *)
(** ** Generic aliases and references to static members                    *)
(* ===================================================================== *)

Module Generic.













(** [Parameters<typeof C.m>]: the parameter types of the static member
    [m] of class [C], in order. *)
Definition parameters_of (q : QName) : option (list TypeExpr) :=
  match q with
  | [cls; name] =>
      match find_class cls with
      | Some c =>
          match find_member true name c with
          | Some m =>
              match m_kind m with
              | Method => Some (map p_type (m_params m))
              | _ => None
              end
          | None => None
          end
      | None => None
      end
  | _ => None
  end.

(** [Parameters<typeof C.m>[n]]; nothing when the index is outside the
    parameter list. *)
Definition resolve_static (t : TypeExpr) : option TypeExpr :=
  match t with
  | TIndex (TRef name [TTypeof q]) (TLitNum n) =>
      if qname_eqb name ["Parameters"]
      then match parameters_of q with
           | Some ps =>
               if (0 <=? n)%Z then nth_error ps (Z.to_nat n) else None
           | None => None
           end
      else None
  | _ => None
  end.

(** [resolve] in each alternative of a union. *)
Definition resolve_alts (self : ThisType) (t : TypeExpr) : TypeExpr :=
  match t with
  | TUnion l => TUnion (map (resolve self) l)
  | _ => resolve self t
  end.

(** The members of a class that can be called or read through a getter
    and are written without a result type. *)
Definition untyped_callables (c : ClassDecl) : list string :=
  map m_name
      (filter (fun m => is_callable m
                        && match m_type m with Some _ => false | None => true end)
              (c_members c)).

(** The properties (neither getters nor methods) of the instance side. *)
Definition instance_properties (c : ClassDecl) : list (string * TypeExpr) :=
  flat_map (fun m =>
              match m_kind m, m_static m, m_type m with
              | Property, false, Some t => [(m_name m, t)]
              | _, _, _ => []
              end) (c_members c).

Definition starts_with (pre s : string) : bool := String.prefix pre s.

Definition last_param (m : Member) : option (string * TypeExpr) :=
  option_map (fun p => (p_name p, p_type p)) (nth_error (m_params m) (List.length (m_params m) - 1)).

(** The two alternatives of the declared result of [Scene.clone]. *)
Definition clone_alternative (t : TypeExpr) : Prop :=
  t = TThis \/ t = tpromise TThis.

(** Does a member take [options: DocumentModificationOptions]? *)
Definition has_modification_options (m : Member) : bool :=
  existsb (fun p => String.eqb (p_name p) "options"
                    && type_eqb (p_type p) (tname "DocumentModificationOptions"))
          (m_params m).

(** The parameter [k] places before the end ([0] is the last one). *)
Definition param_from_end (k : nat) (m : Member)
  : option (string * TypeExpr) :=
  option_map (fun p => (p_name p, p_type p))
             (nth_error (rev (m_params m)) k).

(** Once a parameter is optional, are all the later ones optional too? *)
Fixpoint optional_tail (ps : list Param) : bool :=
  match ps with
  | [] => true
  | p :: rest =>
      (if p_optional p then forallb p_optional rest else true)
      && optional_tail rest
  end.

(** The conditional of [clone] at one union member of [Save]. *)
Definition clone_branch (a : TypeExpr) : TypeExpr :=
  reduce_cond a (TLitBool true) (tpromise TThis) TThis.

(** The property names of every object type written inside a type. *)
Fixpoint object_keys (t : TypeExpr) : list (list string) :=
  match t with
  | TRef _ args => flat_map object_keys args
  | TIndex o k => object_keys o ++ object_keys k
  | TArray e => object_keys e
  | TTuple l => flat_map object_keys l
  | TUnion l => flat_map object_keys l
  | TInter l => flat_map object_keys l
  | TCond c e y n =>
      object_keys c ++ object_keys e ++ object_keys y ++ object_keys n
  | TFun ps r =>
      flat_map (fun p => match p with (_, _, ty) => object_keys ty end) ps
      ++ object_keys r
  | TObject ps =>
      map (fun p => match p with (_, n, _, _) => n end) ps
      :: flat_map (fun p => match p with (_, _, _, ty) => object_keys ty end) ps
  | _ => []
  end.

(** The name lists in which a repeated name would make a lookup
    ambiguous: the properties of each object type and interface, and the
    members of each side of each class. *)
Definition key_lists (f : SourceFile) : list (list string) :=
  flat_map object_keys (flat_map decl_types (sf_decls f))
  ++ map (fun i => map prop_name (i_props i)) (interfaces f)
  ++ flat_map (fun c =>
       [map m_name (filter (fun m => m_static m) (c_members c));
        map m_name (filter (fun m => negb (m_static m)) (c_members c))])
       (classes f).

Fixpoint nodupb (l : list string) : bool :=
  match l with
  | [] => true
  | x :: rest => negb (existsb (String.eqb x) rest) && nodupb rest
  end.

(** *** Objects typed by a class *)







End Generic.
Export Generic.

(* ===================================================================== *)
(** ** Properties of the declared surface                                  *)
(* ===================================================================== *)

Import SceneFile PackageFile.

(** A class extends a base of the known kinds, none of whose names the
    repository declares. *)
Definition external_base (c : ClassDecl) : Prop :=
  exists h,
    c_extends c = Some h
    /\ known_base h = true
    /\ Forall (fun q => declared_in_repository q = false) (heritage_names h).

Definition bodiless (c : ClassDecl) : Prop :=
  Forall (fun m => m_body m = None) (c_members c).

Lemma forallb_Forall (A : Type) (f : A -> bool) (l : list A) :
  forallb f l = true -> Forall (fun x => f x = true) l.
Proof.
  intro H. apply Forall_forall. now apply forallb_forall.
Qed.

Lemma has_body_false (m : Member) : has_body m = false -> m_body m = None.
Proof.
  unfold has_body. destruct (m_body m); [discriminate | reflexivity].
Qed.

Lemma extends_external_spec (c : ClassDecl) :
  extends_external c = true -> external_base c.
Proof.
  unfold extends_external, external_base.
  destruct (c_extends c) as [h|]; [|discriminate].
  intro H. apply andb_prop in H. destruct H as [Hk Hd].
  exists h. repeat split; trivial.
  apply forallb_Forall in Hd.
  eapply Forall_impl; [|exact Hd].
  intros q Hq. simpl in Hq. now apply negb_true_iff.
Qed.

Lemma bodiless_spec (c : ClassDecl) :
  forallb (fun m => negb (has_body m)) (c_members c) = true -> bodiless c.
Proof.
  intro H. apply forallb_Forall in H.
  eapply Forall_impl; [|exact H].
  intros m Hm. simpl in Hm. apply has_body_false. now apply negb_true_iff.
Qed.

(** C1: the repository is declarations-only.  Its classes are the eight
    listed; every member of every class (method, getter or property, on
    either side) is a signature without a body; and every class extends
    [ClientDocumentMixin(foundry.documents.BaseScene)], [DataModel<..>] or
    a class of [fields], none of which either source file declares. *)
Theorem repository_is_declarations_only :
  map c_name repo_classes
  = ["Scene"; "PackageCompatibility"; "PackageRelationships";
     "RelatedPackage"; "PackageCompendiumFolder";
     "CompendiumOwnershipField"; "PackageCompendiumPacks"; "BasePackage"]
  /\ Forall (fun c => bodiless c /\ external_base c) repo_classes.
Proof.
  split; [reflexivity|].
  assert (H : forallb (fun c =>
                forallb (fun m => negb (has_body m)) (c_members c)
                && extends_external c) repo_classes = true)
    by (vm_compute; reflexivity).
  apply forallb_Forall in H.
  eapply Forall_impl; [|exact H].
  intros c Hc. simpl in Hc. apply andb_prop in Hc. destruct Hc as [Hb He].
  split; [now apply bodiless_spec | now apply extends_external_spec].
Qed.

(** C3: [Scene.getDimensions] is a signature without parameters or body
    whose declared result is [SceneDimensions]; the interface
    [SceneDimensions] extends nothing and has exactly the twelve listed
    fields; and the property [dimensions] is declared as
    [ReturnType<this["getDimensions"]>], which is [SceneDimensions]
    whatever [Scene] inherits. *)
Theorem getDimensions_declared_result :
  exists c g d i,
    find_class "Scene" = Some c
    /\ find_member false "getDimensions" c = Some g
    /\ m_kind g = Method /\ m_params g = [] /\ m_body g = None
    /\ m_type g = Some (tname "SceneDimensions")
    /\ find_interface "SceneDimensions" = Some i
    /\ i_extends i = []
    /\ map prop_name (i_props i)
       = ["width"; "height"; "size"; "rect"; "sceneX"; "sceneY";
          "sceneWidth"; "sceneHeight"; "sceneRect"; "distance"; "ratio";
          "maxR"]
    /\ find_member false "dimensions" c = Some d
    /\ m_kind d = Property
    /\ m_type d = Some (tapp "ReturnType" [this_at "getDimensions"])
    /\ forall inherited : ThisType,
         resolve (class_this c inherited)
                 (tapp "ReturnType" [this_at "getDimensions"])
         = tname "SceneDimensions".
Proof.
  do 4 eexists.
  repeat (split; [reflexivity|]).
  intro inherited. reflexivity.
Qed.

(** C4: [Scene] is declared, with the comment that it is the client-side
    document extending the common BaseScene model, as a class whose base
    is [ClientDocumentMixin] applied to [foundry.documents.BaseScene];
    neither name (nor the namespace [foundry]) is declared or imported by
    a file of the repository. *)
Theorem Scene_base_is_mixin_of_BaseScene :
  exists c,
    find_class "Scene" = Some c
    /\ In "The client-side Scene document which extends the common BaseScene model."
          (c_doc c)
    /\ c_extends c
       = Some (HCall ["ClientDocumentMixin"]
                     [["foundry"; "documents"; "BaseScene"]])
    /\ Forall
         (fun q =>
            Forall (fun f => declares f q = false
                             /\ declares f (firstn 1 q) = false
                             /\ imported_from f q = None)
                   repository)
         [["ClientDocumentMixin"]; ["foundry"; "documents"; "BaseScene"]].
Proof.
  eexists. split; [reflexivity|].
  split; [simpl; tauto|].
  split; [reflexivity|].
  repeat constructor.
Qed.

(** C5: [Scene] declares the getters [thumbnail], of type [this["thumb"]],
    and [isView], of type [boolean], and the six lifecycle hooks
    [_preCreate], [_onCreate], [_preUpdate], [_onUpdate], [_preDelete],
    [_onDelete], each a protected override; none of the eight has a
    body. *)
Theorem Scene_getters_and_lifecycle_hooks :
  exists c,
    find_class "Scene" = Some c
    /\ (exists m, find_member false "thumbnail" c = Some m
                  /\ m_kind m = Getter
                  /\ m_type m = Some (this_at "thumb")
                  /\ m_body m = None)
    /\ (exists m, find_member false "isView" c = Some m
                  /\ m_kind m = Getter
                  /\ m_type m = Some tboolean
                  /\ m_body m = None)
    /\ Forall
         (fun hook =>
            exists m, find_member false hook c = Some m
                      /\ m_kind m = Method
                      /\ m_access m = Protected
                      /\ m_override m = true
                      /\ m_body m = None)
         ["_preCreate"; "_onCreate"; "_preUpdate"; "_onUpdate";
          "_preDelete"; "_onDelete"].
Proof.
  eexists. split; [reflexivity|].
  split; [eexists; repeat split; reflexivity|].
  split; [eexists; repeat split; reflexivity|].
  repeat (apply Forall_cons; [eexists; repeat split; reflexivity|]).
  apply Forall_nil.
Qed.

(** C6: the [compatibility] field of [BasePackage.Schema] is a
    [PackageCompatibility], whose schema has exactly the three string
    fields [minimum], [verified] and [maximum], documented as the version
    before which the package will not function, up to which it is
    verified, and after which it will not function; the [relationships]
    field is a [PackageRelationships], whose schema has the set fields
    [systems], [requires], [recommends], [conflicts] and the object field
    [flags]. *)
Theorem package_sub_schemas :
  option_map shape (sub_schema "compatibility")
  = Some [("minimum", StringField); ("verified", StringField);
          ("maximum", StringField)]
  /\ (exists c,
        find_class "PackageCompatibility" = Some c
        /\ doc_tags "@property" (c_doc c)
           = ["@property {string} minimum     The Package will not function before this version";
              "@property {string} verified    Verified compatible up to this version";
              "@property {string} maximum     The Package will not function after this version"])
  /\ option_map shape (sub_schema "relationships")
     = Some [("systems", SetField); ("requires", SetField);
             ("recommends", SetField); ("conflicts", SetField);
             ("flags", ObjectField)].
Proof.
  split; [reflexivity|].
  split; [eexists; split; reflexivity|].
  reflexivity.
Qed.

(** C7: [BasePackage] declares the static method
    [testAvailability(data, options)], without body, with declared result
    [CONST.PACKAGE_AVAILABILITY_CODES], whose [release] option is optional
    (it lies under [InexactPartial]) and documented as testing against the
    current release by default; and the static method
    [migrateData(data, logOptions)], without body, with declared result
    [object]. *)
Theorem availability_and_migration_signatures :
  exists c t g options inner release,
    find_class "BasePackage" = Some c
    /\ find_member true "testAvailability" c = Some t
    /\ m_kind t = Method
    /\ map p_name (m_params t) = ["data"; "options"]
    /\ m_type t = Some AVAILABILITY_CODES
    /\ m_body t = None
    /\ nth_error (m_params t) 1 = Some options
    /\ p_type options = tapp "InexactPartial" [inner]
    /\ find_prop "release" inner = Some release
    /\ prop_type release = tname "ReleaseData"
    /\ In "Tests against the current release by default." (prop_doc release)
    /\ find_member true "migrateData" c = Some g
    /\ m_kind g = Method
    /\ map p_name (m_params g) = ["data"; "logOptions"]
    /\ m_type g = Some tobject
    /\ m_body g = None.
Proof.
  do 6 eexists.
  repeat (split; [reflexivity|]).
  split; [simpl; tauto|].
  repeat (split; [reflexivity|]).
  reflexivity.
Qed.

(** For a literal [Save], the conditional picks one branch. *)
Lemma clone_at_literal (b : bool) :
  option_map (fun clone => result_at clone (TLitBool b))
             (find_member false "clone" Scene)
  = Some (Some (if b then tpromise TThis else TThis)).
Proof.
  destruct b; reflexivity.
Qed.

(** [never] is the empty union: the conditional distributes over nothing. *)
Lemma clone_at_never :
  option_map (fun clone => result_at clone tnever)
             (find_member false "clone" Scene)
  = Some (Some tnever).
Proof.
  reflexivity.
Qed.

(** C8, as the claim states it, fails at [Save = boolean]: that argument
    satisfies [Save extends boolean] and is not the literal type [true],
    yet the declared result is not [this] but the union
    [this | Promise<this>]. *)
Lemma clone_at_boolean_is_not_this :
  exists clone,
    find_member false "clone" Scene = Some clone
    /\ accepts clone tboolean = true
    /\ type_eqb tboolean (TLitBool true) = false
    /\ result_at clone tboolean = Some (TUnion [TThis; tpromise TThis])
    /\ result_at clone tboolean <> Some TThis.
Proof.
  eexists. repeat (split; [reflexivity|]). discriminate.
Qed.

(** C8, amended: [clone] has one type parameter, [Save extends boolean =
    false], which is the type of the [save] property of its optional
    second parameter; both parameters are optional.  Its declared result
    is [Promise<this>] when [Save] is the literal type [true], and [this]
    when [Save] is the literal type [false], which is the case by
    default; when [Save] is the whole type [boolean], the declared result
    is the union of the two. *)
Theorem clone_declared_result :
  exists c clone context props,
    find_class "Scene" = Some c
    /\ find_member false "clone" c = Some clone
    /\ m_tparams clone
       = [mkTypeParam "Save" (Some tboolean) (Some (TLitBool false))]
    /\ map (fun p => (p_name p, p_optional p)) (m_params clone)
       = [("createData", true); ("context", true)]
    /\ nth_error (m_params clone) 1 = Some context
    /\ p_type context
       = tapp "InexactPartial"
           [TInter [props; tname "DocumentConstructionContext"]]
    /\ shape props = [("save", tname "Save"); ("keepId", tboolean)]
    /\ m_body clone = None
    /\ result_at clone (TLitBool true) = Some (tpromise TThis)
    /\ result_at clone (TLitBool false) = Some TThis
    /\ result_at_default clone = Some TThis
    /\ exists r,
         result_at clone tboolean = Some r
         /\ forall t, In t (constituents r) <-> t = TThis \/ t = tpromise TThis.
Proof.
  do 4 eexists.
  repeat (split; [reflexivity|]).
  eexists. split; [reflexivity|].
  intro t. cbv [constituents flat_map app In].
  split.
  - intros [H | [H | []]]; [left | right]; symmetry; exact H.
  - intros [H | H]; [left | right; left]; symmetry; exact H.
Qed.




(** No value has the type [never]. *)
Lemma never_has_no_value (ext : TypeExpr -> Value -> bool) (v : Value) :
  conforms ext tnever v = false.
Proof.
  reflexivity.
Qed.

(** C10: [BasePackage.fromRemoteManifest(manifestUrl, options)] is
    declared to return [Promise<never>].  Hence for every implementation
    of that signature and for every [manifestUrl] and [options], the
    promise returned is never fulfilled with a value: it stays pending or
    is rejected.  The documentation has one [@throws] line, about invalid
    manifest data, while its [@returns] line says the promise resolves to
    a constructed ServerPackage instance. *)
Theorem fromRemoteManifest_never_fulfills
    (ext : TypeExpr -> Value -> bool)
    (impl : string -> Value -> PromiseState)
    (ret : TypeExpr)
    (Hret : declared_type true "BasePackage" "fromRemoteManifest" = Some ret)
    (Himpl : forall manifestUrl options,
        promise_conforms ext ret (impl manifestUrl options) = true) :
  ret = tpromise tnever
  /\ (forall manifestUrl options v, impl manifestUrl options <> Fulfilled v)
  /\ (forall manifestUrl options,
        impl manifestUrl options = Pending
        \/ exists reason, impl manifestUrl options = Rejected reason)
  /\ exists c m,
       find_class "BasePackage" = Some c
       /\ find_member true "fromRemoteManifest" c = Some m
       /\ m_body m = None
       /\ map p_name (m_params m) = ["manifestUrl"; "options"]
       /\ doc_tags "@throws" (m_doc m)
          = ["@throws An error if the retrieved manifest data is invalid"]
       /\ doc_tags "@returns" (m_doc m)
          = ["@returns A Promise which resolves to a constructed ServerPackage instance"].
Proof.
  assert (Hr : ret = tpromise tnever)
    by (vm_compute in Hret; injection Hret as <-; reflexivity).
  subst ret.
  assert (Hnot : forall u o v, impl u o <> Fulfilled v).
  { intros u o v Heq. specialize (Himpl u o). rewrite Heq in Himpl.
    simpl in Himpl. discriminate. }
  split; [reflexivity|].
  split; [exact Hnot|].
  split.
  - intros u o. destruct (impl u o) as [|v|r] eqn:E.
    + now left.
    + exfalso. exact (Hnot u o v E).
    + right. now exists r.
  - do 2 eexists. repeat (split; [reflexivity|]). reflexivity.
Qed.

Lemma fromRemoteManifest_never_fulfills_witness :
  let impl : string -> Value -> PromiseState :=
    fun _ _ => Rejected (VStr "invalid manifest") in
  declared_type true "BasePackage" "fromRemoteManifest"
  = Some (tpromise tnever)
  /\ forall manifestUrl options v, impl manifestUrl options <> Fulfilled v.
Proof.
  intro impl.
  split; [reflexivity|].
  exact (proj1 (proj2
    (@fromRemoteManifest_never_fulfills (fun _ _ => true) impl
       (tpromise tnever) eq_refl (fun _ _ => eq_refl)))).
Defined.



(* ===================================================================== *)
(** ** Further properties of the declarations                              *)
(* ===================================================================== *)



Lemma logWarning_index (n : Z) :
  resolve_static
    (TIndex (tapp "Parameters" [TTypeof ["BasePackage"; "_logWarning"]])
            (TLitNum n))
  = if (0 <=? n)%Z
    then nth_error
           (match find_member true "_logWarning" BasePackage with
            | Some lw => map p_type (m_params lw)
            | None => []
            end)
           (Z.to_nat n)
    else None.
Proof.
  reflexivity.
Qed.

(** X2: each of the six protected static migration helpers of
    [BasePackage] is a bodiless method [(data: object, logOptions)]
    returning [void], and its [logOptions], written
    [Parameters<typeof BasePackage._logWarning>[2]], is the type of the
    third parameter ([options]) of [_logWarning].  For a numeric literal
    index [n], [Parameters<typeof BasePackage._logWarning>[n]] is the type
    of the parameter at position [n] of [_logWarning] ([string], [string]
    and the options type) when [n] is 0, 1 or 2, and nothing otherwise. *)
Theorem migration_helpers_share_logWarning_options :
  exists c lw options,
    find_class "BasePackage" = Some c
    /\ find_member true "_logWarning" c = Some lw
    /\ m_kind lw = Method
    /\ map (fun p => (p_name p, p_type p)) (m_params lw)
       = [("packageId", tstring); ("message", tstring);
          ("options", p_type options)]
    /\ p_type options
       = tapp "InexactPartial"
           [TUnion
              [TObject [req ["Is the package installed?"] "installed" tunknown];
               tname "LogCompatibilityWarningOptions"]]
    /\ Forall
         (fun helper =>
            exists m,
              find_member true helper c = Some m
              /\ m_kind m = Method
              /\ m_access m = Protected
              /\ m_body m = None
              /\ m_type m = Some tvoid
              /\ map (fun p => (p_name p, p_optional p, p_type p)) (m_params m)
                 = [("data", false, tobject);
                    ("logOptions", false,
                     TIndex (tapp "Parameters"
                               [TTypeof ["BasePackage"; "_logWarning"]])
                            (TLitNum 2))]
              /\ option_map (fun p => resolve_static (p_type p))
                            (nth_error (m_params m) 1)
                 = Some (Some (p_type options)))
         ["_migrateNameToId"; "_migrateDependenciesNameToId";
          "_migrateToRelationships"; "_migrateCompatibility";
          "_migrateMediaURL"; "_migrateOwnership"]
    /\ forall n : Z,
         resolve_static
           (TIndex (tapp "Parameters" [TTypeof ["BasePackage"; "_logWarning"]])
                   (TLitNum n))
         = if ((0 <=? n) && (n <? 3))%Z
           then option_map p_type (nth_error (m_params lw) (Z.to_nat n))
           else None.
Proof.
  do 3 eexists.
  do 5 (split; [reflexivity|]).
  split.
  - repeat (apply Forall_cons;
            [eexists; repeat (split; [reflexivity|]); reflexivity|]).
    apply Forall_nil.
  - intro n. rewrite logWarning_index.
    destruct (0 <=? n)%Z eqn:Hn; [|reflexivity].
    apply Z.leb_le in Hn.
    destruct (n <? 3)%Z eqn:Hn3.
    + apply Z.ltb_lt in Hn3.
      assert (Hcase : n = 0%Z \/ n = 1%Z \/ n = 2%Z) by lia.
      destruct Hcase as [-> | [-> | ->]]; reflexivity.
    + apply Z.ltb_ge in Hn3. cbv [andb].
      apply nth_error_None. change (3 <= Z.to_nat n)%nat. lia.
Qed.

Section CloneAlternatives.

Lemma type_eqb_alternative (t u : TypeExpr) :
  clone_alternative t -> clone_alternative u ->
  (type_eqb t u = true <-> t = u).
Proof.
  intros [-> | ->] [-> | ->]; split; intro H;
    try reflexivity; try discriminate H.
Qed.

Lemma add_type_alternative (t : TypeExpr) (l : list TypeExpr) :
  clone_alternative t -> Forall clone_alternative l ->
  Forall clone_alternative (add_type t l)
  /\ forall x, In x (add_type t l) <-> x = t \/ In x l.
Proof.
  intros Ht Hl. induction Hl as [|u rest Hu Hrest IH].
  - split; [simpl; constructor; [exact Ht | constructor]|].
    intro x. simpl. intuition.
  - simpl. destruct (type_eqb t u) eqn:E.
    + apply (type_eqb_alternative Ht Hu) in E. subst u.
      split; [constructor; assumption|].
      intro x. simpl. intuition.
    + destruct IH as [IHa IHi].
      split; [constructor; assumption|].
      intro x. simpl. rewrite IHi. intuition.
Qed.

Lemma fold_add_type_alternative (l acc : list TypeExpr) :
  Forall clone_alternative l -> Forall clone_alternative acc ->
  Forall clone_alternative (fold_left (fun a t => add_type t a) l acc)
  /\ forall x, In x (fold_left (fun a t => add_type t a) l acc)
               <-> In x acc \/ In x l.
Proof.
  intro Hl. revert acc. induction Hl as [|t rest Ht Hrest IH]; intros acc Hacc.
  - simpl. split; [assumption|]. intro x. intuition.
  - simpl. destruct (add_type_alternative Ht Hacc) as [Ha Hi].
    destruct (IH _ Ha) as [IHa IHi].
    split; [assumption|].
    intro x. rewrite IHi, Hi. intuition.
Qed.

Lemma constituents_alternative (t : TypeExpr) :
  clone_alternative t -> constituents t = [t].
Proof.
  intros [-> | ->]; reflexivity.
Qed.

Lemma flat_constituents_alternative (l : list TypeExpr) :
  Forall clone_alternative l -> flat_map constituents l = l.
Proof.
  induction 1 as [|t rest Ht Hrest IH]; [reflexivity|].
  simpl. rewrite (constituents_alternative Ht), IH. reflexivity.
Qed.

(** The union of a list of alternatives has those alternatives as its
    members, each once. *)
Lemma union_of_alternatives (l : list TypeExpr) :
  Forall clone_alternative l ->
  forall x, In x (constituents (union_of l)) <-> In x l.
Proof.
  intros Hl x. unfold union_of.
  destruct (@fold_add_type_alternative l [] Hl (Forall_nil _)) as [Ha Hi].
  specialize (Hi x).
  destruct (fold_left (fun a t => add_type t a) l []) as [|t [|u rest]].
  - simpl in *. intuition.
  - inversion Ha as [|? ? Ht _]; subst.
    rewrite (constituents_alternative Ht). simpl in *. intuition.
  - change (constituents (TUnion (t :: u :: rest)))
      with (flat_map constituents (t :: u :: rest)).
    rewrite (flat_constituents_alternative Ha). simpl in *. intuition.
Qed.

Lemma clone_branch_literal (b : bool) :
  clone_branch (TLitBool b) = if b then tpromise TThis else TThis.
Proof.
  destruct b; reflexivity.
Qed.

Lemma clone_branches (cs : list TypeExpr) :
  Forall (fun a => exists b, a = TLitBool b) cs ->
  Forall clone_alternative (map clone_branch cs)
  /\ (In (tpromise TThis) (map clone_branch cs) <-> In (TLitBool true) cs)
  /\ (In TThis (map clone_branch cs) <-> In (TLitBool false) cs).
Proof.
  induction 1 as [|a rest [b ->] Hrest (IHa & IHp & IHt)].
  - simpl. repeat split; try constructor; intros [].
  - simpl. rewrite clone_branch_literal.
    split; [|split].
    + constructor; [destruct b; [right | left]; reflexivity | exact IHa].
    + rewrite IHp. destruct b; split; intros [H | H];
        try (left; reflexivity); try (right; exact H); discriminate H.
    + rewrite IHt. destruct b; split; intros [H | H];
        try (left; reflexivity); try (right; exact H); discriminate H.
Qed.

End CloneAlternatives.

(** X3: for every type argument [Save] whose union members are all
    literal booleans (so [true], [false], [boolean], [never] and any union
    of them), the declared result of [Scene.clone] has no alternative
    besides [this] and [Promise<this>]; it has the alternative
    [Promise<this>] exactly when [true] is a member of [Save], and the
    alternative [this] exactly when [false] is. *)
Theorem clone_result_alternatives
    (Save : TypeExpr)
    (Hlit : Forall (fun a => exists b, a = TLitBool b) (constituents Save)) :
  exists clone r,
    find_member false "clone" Scene = Some clone
    /\ result_at clone Save = Some r
    /\ (forall t, In t (constituents r) -> clone_alternative t)
    /\ (In (tpromise TThis) (constituents r)
        <-> In (TLitBool true) (constituents Save))
    /\ (In TThis (constituents r)
        <-> In (TLitBool false) (constituents Save)).
Proof.
  eexists.
  exists (union_of (map clone_branch (constituents Save))).
  destruct (clone_branches Hlit) as (Ha & Hp & Ht).
  split; [reflexivity|].
  split; [reflexivity|].
  split; [|split].
  - intros t Hin. apply (union_of_alternatives Ha) in Hin.
    rewrite Forall_forall in Ha. exact (Ha t Hin).
  - rewrite (union_of_alternatives Ha). exact Hp.
  - rewrite (union_of_alternatives Ha). exact Ht.
Qed.

Lemma clone_result_alternatives_witness :
  exists clone r,
    find_member false "clone" Scene = Some clone
    /\ result_at clone (TUnion [TLitBool true; tboolean]) = Some r
    /\ In (tpromise TThis) (constituents r)
    /\ In TThis (constituents r).
Proof.
  assert (Hlit : Forall (fun a => exists b, a = TLitBool b)
                        (constituents (TUnion [TLitBool true; tboolean]))).
  { simpl. repeat constructor; eexists; reflexivity. }
  destruct (@clone_result_alternatives _ Hlit) as (clone & r & Hc & Hr & _ & Hp & Ht).
  exists clone, r. repeat split; try assumption.
  - apply Hp. simpl. auto.
  - apply Ht. simpl. auto.
Defined.

Lemma conforms_string_literals (ext : TypeExpr -> Value -> bool)
    (a b c : string) (v : Value) :
  conforms ext (TUnion [TLitStr a; TLitStr b; TLitStr c]) v = true
  <-> v = VStr a \/ v = VStr b \/ v = VStr c.
Proof.
  destruct v as [| |x|n|s|items|tag]; simpl;
    try (split; [discriminate | intros [H | [H | H]]; discriminate H]).
  rewrite orb_false_r, !orb_true_iff, !String.eqb_eq.
  split; intros [H | [H | H]].
  - left. now subst.
  - right; left. now subst.
  - right; right. now subst.
  - left. now injection H.
  - right; left. now injection H.
  - right; right. now injection H.
Qed.

(** X4: the static getter [BasePackage.collection] is declared with the
    type ["worlds" | "systems" | "modules"]: a value has that type exactly
    when it is one of these three strings. *)
Theorem collection_is_one_of_three_names :
  exists T,
    declared_type true "BasePackage" "collection" = Some T
    /\ forall (ext : TypeExpr -> Value -> bool) (v : Value),
         conforms ext T v = true
         <-> v = VStr "worlds" \/ v = VStr "systems" \/ v = VStr "modules".
Proof.
  eexists. split; [reflexivity|].
  intros ext v. apply conforms_string_literals.
Qed.

(** X5: the [format] of [ThumbnailCreationData] admits exactly the three
    strings [image/png], [image/jpg] and [image/webp], and the value its
    comment documents as the default, [image/webp], is one of them. *)
Theorem thumbnail_format_values :
  exists i format,
    find_interface "ThumbnailCreationData" = Some i
    /\ find (fun p => String.eqb (prop_name p) "format") (i_props i)
       = Some format
    /\ doc_tags "@defaultValue" (prop_doc format)
       = [("@defaultValue `" ++ dquote ++ "image/webp" ++ dquote ++ "`")%string]
    /\ forall (ext : TypeExpr -> Value -> bool),
         conforms ext (prop_type format) (VStr "image/webp") = true
         /\ forall v,
              conforms ext (prop_type format) v = true
              <-> v = VStr "image/png" \/ v = VStr "image/jpg"
                  \/ v = VStr "image/webp".
Proof.
  do 2 eexists.
  do 3 (split; [reflexivity|]).
  intro ext. split; [reflexivity|].
  intro v. apply conforms_string_literals.
Qed.

(** X6: [Scene.activate] and [Scene.view] are both declared to return
    [Promise<this | undefined>].  A promise of that type that is
    fulfilled holds either [undefined] or a value of type [this]; and
    fulfilling with [undefined] always has the declared type, so a caller
    cannot rely on receiving the scene. *)
Theorem activate_and_view_may_yield_undefined
    (ext : TypeExpr -> Value -> bool) (p : PromiseState) (name : string)
    (T : TypeExpr)
    (Hname : name = "activate" \/ name = "view")
    (HT : declared_type false "Scene" name = Some T)
    (Hp : promise_conforms ext T p = true) :
  T = tpromise (TUnion [TThis; tundefined])
  /\ promise_conforms ext T (Fulfilled VUndefined) = true
  /\ (p = Pending
      \/ (exists reason, p = Rejected reason)
      \/ p = Fulfilled VUndefined
      \/ exists v, p = Fulfilled v /\ ext TThis v = true).
Proof.
  assert (E : T = tpromise (TUnion [TThis; tundefined])).
  { destruct Hname as [-> | ->]; vm_compute in HT;
      injection HT as <-; reflexivity. }
  subst T. split; [reflexivity|].
  split; [simpl; apply orb_true_r|].
  destruct p as [|v|r].
  - now left.
  - right; right. simpl in Hp. rewrite orb_false_r in Hp.
    apply orb_true_iff in Hp. destruct Hp as [Hp | Hp].
    + right. exists v. split; [reflexivity | exact Hp].
    + left. destruct v; try discriminate Hp. reflexivity.
  - right; left. now exists r.
Qed.

Lemma activate_and_view_may_yield_undefined_witness :
  declared_type false "Scene" "view"
  = Some (tpromise (TUnion [TThis; tundefined]))
  /\ promise_conforms (fun _ _ => false)
       (tpromise (TUnion [TThis; tundefined])) (Fulfilled VUndefined) = true.
Proof.
  split; [reflexivity|].
  exact (proj1 (proj2
    (@activate_and_view_may_yield_undefined (fun _ _ => false)
       (Fulfilled VUndefined) "view" (tpromise (TUnion [TThis; tundefined]))
       (or_intror eq_refl) eq_refl eq_refl))).
Defined.

(** X7: the declared result of [Scene._onActivate],
    [ReturnType<this["view"]> | ReturnType<Canvas["draw"]>], has as its
    first alternative the declared result of [view], whatever [Scene]
    inherits; the second alternative refers to [Canvas], which no file of
    the repository declares, and stays as written. *)
Theorem onActivate_result_is_view_or_draw :
  exists T V,
    declared_type false "Scene" "_onActivate" = Some T
    /\ declared_type false "Scene" "view" = Some V
    /\ declared_in_repository ["Canvas"] = false
    /\ forall inherited : ThisType,
         resolve_alts (class_this Scene inherited) T
         = TUnion [V;
                   tapp "ReturnType" [TIndex (tname "Canvas") (TLitStr "draw")]].
Proof.
  do 2 eexists.
  do 3 (split; [reflexivity|]).
  intro inherited. reflexivity.
Qed.

(** X8: the members of [Scene] that take
    [options: DocumentModificationOptions] are the six lifecycle hooks and
    the four descendant-document overrides.  In each of them [options] is
    the last parameter but one, and the last parameter goes with the
    result: [user: foundry.documents.BaseUser] when the member returns
    [Promise<void>] (the three [_pre] hooks), [userId: string] when it
    returns [void] (all the others). *)
Theorem modification_hooks_convention :
  exists c,
    find_class "Scene" = Some c
    /\ map m_name (filter has_modification_options (c_members c))
       = ["_preCreate"; "_onCreate"; "_preUpdate"; "_onUpdate";
          "_preDelete"; "_onDelete";
          "_preCreateDescendantDocuments"; "_preUpdateDescendantDocuments";
          "_preDeleteDescendantDocuments"; "_onUpdateDescendantDocuments"]
    /\ map m_name
         (filter (fun m => match m_type m with
                           | Some t => type_eqb t (tpromise tvoid)
                           | None => false
                           end)
                 (c_members c))
       = ["_preCreate"; "_preUpdate"; "_preDelete"]
    /\ Forall
         (fun m =>
            m_override m = true
            /\ param_from_end 1 m = Some ("options", DocumentModificationOptions)
            /\ ((m_type m = Some (tpromise tvoid)
                 /\ param_from_end 0 m = Some ("user", BaseUser))
                \/ (m_type m = Some tvoid
                    /\ param_from_end 0 m = Some ("userId", tstring))))
         (filter has_modification_options (c_members c)).
Proof.
  eexists. do 3 (split; [reflexivity|]).
  match goal with
  | |- Forall _ ?l => let l' := eval vm_compute in l in change l with l'
  end.
  repeat (apply Forall_cons;
          [split; [reflexivity|];
           split; [reflexivity|];
           first [left; split; reflexivity | right; split; reflexivity] |]).
  apply Forall_nil.
Qed.

Lemma mentions_root_spec (f : SourceFile) (n : string) :
  mentions_root f n = true ->
  exists q, In q (file_refs f) /\ root q = Some n.
Proof.
  unfold mentions_root. intro H.
  apply existsb_exists in H. destruct H as (q & Hq & Hr).
  exists q. split; [exact Hq|].
  destruct (root q) as [r|]; [|discriminate].
  apply String.eqb_eq in Hr. now subst.
Qed.

(** X9: no import of either file is unused: every name an import
    statement binds is mentioned, as the first identifier of a name, in a
    type, a [typeof] or an [extends] clause of the same file. *)
Theorem every_import_is_used
    (f : SourceFile) (i : Import) (n : string)
    (Hf : In f repository)
    (Hi : In i (sf_imports f))
    (Hn : In n (import_binds i)) :
  exists q, In q (file_refs f) /\ root q = Some n.
Proof.
  apply mentions_root_spec.
  assert (H : forallb (fun g =>
                forallb (fun j => forallb (mentions_root g) (import_binds j))
                        (sf_imports g)) repository = true)
    by (vm_compute; reflexivity).
  rewrite forallb_forall in H. specialize (H f Hf).
  rewrite forallb_forall in H. specialize (H i Hi).
  rewrite forallb_forall in H. exact (H n Hn).
Qed.

Lemma every_import_is_used_witness :
  exists q, In q (file_refs PackageFile.file) /\ root q = Some "ReleaseData".
Proof.
  apply (@every_import_is_used PackageFile.file
           (mkImport true (ImportNamed ["ReleaseData"])
                     "../config.mjs/releaseData.d.mts")
           "ReleaseData").
  - simpl. auto.
  - simpl. auto 10.
  - simpl. auto.
Defined.

(** X10: no reference dangles inside the repository: a type name used in
    a file whose first identifier some file of the repository declares
    (such as [BasePackage.Schema], [PackageCompatibility] or
    [SceneDimensions]) is declared, under its full name, by that same
    file. *)
Theorem internal_references_resolve
    (f : SourceFile) (q : QName)
    (Hf : In f repository)
    (Hq : In q (file_type_refs f))
    (Hroot : existsb (fun g => declares g (firstn 1 q)) repository = true) :
  declares f q = true.
Proof.
  assert (H : forallb (fun g => forallb (declares g) (internal_refs g))
                      repository = true)
    by (vm_compute; reflexivity).
  rewrite forallb_forall in H. specialize (H f Hf).
  rewrite forallb_forall in H. apply H.
  unfold internal_refs. apply filter_In. split; assumption.
Qed.

Lemma In_by_qname_eqb (q : QName) (l : list QName) :
  existsb (qname_eqb q) l = true -> In q l.
Proof.
  intro H. apply existsb_exists in H. destruct H as (x & Hx & E).
  unfold qname_eqb in E.
  destruct (list_eq_dec string_dec q x); [now subst | discriminate].
Qed.

Lemma internal_references_resolve_witness :
  declares PackageFile.file ["BasePackage"; "PackageManifestData"] = true.
Proof.
  apply (@internal_references_resolve PackageFile.file
           ["BasePackage"; "PackageManifestData"]).
  - simpl. auto.
  - apply In_by_qname_eqb. reflexivity.
  - reflexivity.
Defined.

(** X11: [BasePackage.PackageManifestData], of which
    [testAvailability] takes a [Partial], lists the instance properties
    of the class [BasePackage] (availability, locked, exclusive, owned,
    tags) with the same types and in the same order, followed by the one
    key the class has no property for, [hasStorage: boolean]. *)
Theorem manifest_data_mirrors_instance_properties :
  exists c a t data,
    find_class "BasePackage" = Some c
    /\ namespace_alias "PackageManifestData" = Some a
    /\ find_member true "testAvailability" c = Some t
    /\ nth_error (m_params t) 0 = Some data
    /\ p_type data = tapp "Partial" [tq ["BasePackage"; a_name a]]
    /\ map fst (instance_properties c)
       = ["availability"; "locked"; "exclusive"; "owned"; "tags"]
    /\ shape (a_type a)
       = instance_properties c ++ [("hasStorage", tboolean)].
Proof.
  do 4 eexists. repeat (split; [reflexivity|]). reflexivity.
Qed.

(** X12: among all getters and methods of all classes of the
    repository, the only one written without a result type is the
    static method [_logWarning] of [BasePackage]. *)
Theorem only_logWarning_lacks_a_result_type
    (c : ClassDecl) (m : Member)
    (Hc : In c repo_classes)
    (Hm : In m (c_members c))
    (Hcall : is_callable m = true)
    (Hnone : m_type m = None) :
  c_name c = "BasePackage" /\ m_name m = "_logWarning"
  /\ m_static m = true /\ m_kind m = Method.
Proof.
  assert (H : forallb (fun d =>
                forallb (fun x =>
                  negb (is_callable x)
                  || match m_type x with Some _ => true | None => false end
                  || (String.eqb (c_name d) "BasePackage"
                      && String.eqb (m_name x) "_logWarning"
                      && m_static x
                      && match m_kind x with Method => true | _ => false end))
                  (c_members d)) repo_classes = true)
    by (vm_compute; reflexivity).
  rewrite forallb_forall in H. specialize (H c Hc).
  rewrite forallb_forall in H. specialize (H m Hm).
  rewrite Hcall, Hnone in H. simpl in H.
  repeat (apply andb_prop in H; destruct H as [H ?]).
  apply String.eqb_eq in H.
  repeat split; try assumption.
  - now apply String.eqb_eq.
  - destruct (m_kind m); try discriminate; reflexivity.
Qed.

Lemma only_logWarning_lacks_a_result_type_witness :
  exists m,
    find_member true "_logWarning" BasePackage = Some m
    /\ m_type m = None
    /\ m_name m = "_logWarning".
Proof.
  eexists. split; [reflexivity|]. split; [reflexivity|].
  match goal with
  | |- m_name ?m = _ =>
      refine (proj1 (proj2
        (@only_logWarning_lacks_a_result_type BasePackage m _ _
           eq_refl eq_refl)))
  end.
  - simpl. auto 10.
  - simpl. repeat (first [left; reflexivity | right]).
Defined.

Lemma nodupb_spec (l : list string) : nodupb l = true -> NoDup l.
Proof.
  induction l as [|x rest IH]; intro H; [constructor|].
  simpl in H. apply andb_prop in H. destruct H as [Hx Hrest].
  constructor; [|exact (IH Hrest)].
  intro Hin. apply negb_true_iff in Hx.
  assert (E : existsb (String.eqb x) rest = true)
    by (apply existsb_exists; exists x; split;
        [exact Hin | apply String.eqb_refl]).
  congruence.
Qed.

(** X13: lookups by name are unambiguous everywhere: no object type and
    no interface of either file declares a property twice, and no class
    declares two members of the same name on the same side (static or
    instance), so neither file has overloads. *)
Theorem no_name_is_declared_twice :
  Forall (fun f => Forall (fun names => NoDup names) (key_lists f)) repository
  /\ (exists c i s,
        find_class "BasePackage" = Some c
        /\ find_member false "type" c = Some i
        /\ find_member true "type" c = Some s
        /\ m_kind i = Getter /\ m_kind s = Property).
Proof.
  split.
  - assert (H : forallb (fun f => forallb nodupb (key_lists f)) repository
                = true) by (vm_compute; reflexivity).
    apply forallb_Forall in H.
    eapply Forall_impl; [|exact H].
    intros f Hf. simpl in Hf. apply forallb_Forall in Hf.
    eapply Forall_impl; [|exact Hf].
    intros names. apply nodupb_spec.
  - do 3 eexists. repeat (split; [reflexivity|]). reflexivity.
Qed.

(** X14: the schema [BasePackage] is a data model of and the schema its
    static [defineSchema] is declared to return are the same type,
    [BasePackage.Schema], which the namespace declares with 26 fields. *)
Theorem defineSchema_matches_model_schema :
  exists c d S a,
    find_class "BasePackage" = Some c
    /\ find_member true "defineSchema" c = Some d
    /\ m_params d = []
    /\ m_body d = None
    /\ c_extends c
       = Some (HName ["DataModel"]
                     [TRef ["fields"; "SchemaField"] [S]; tnull])
    /\ m_type d = Some S
    /\ namespace_alias "Schema" = Some a
    /\ S = tq ["BasePackage"; a_name a]
    /\ List.length (shape (a_type a)) = 26.
Proof.
  do 4 eexists. repeat (split; [reflexivity|]). reflexivity.
Qed.

(** X15: in every method of every class of the repository, a parameter
    that is optional is followed by optional parameters only (as in
    [clone], [toCompendium], [createThumbnail] and [cleanData], the four
    methods that have optional parameters). *)
Theorem optional_parameters_come_last :
  Forall (fun c => Forall (fun m => optional_tail (m_params m) = true)
                          (c_members c)) repo_classes
  /\ flat_map (fun c =>
       map m_name (filter (fun m => existsb p_optional (m_params m))
                          (c_members c))) repo_classes
     = ["clone"; "toCompendium"; "createThumbnail"; "cleanData"].
Proof.
  split; [|reflexivity].
  assert (H : forallb (fun c =>
                forallb (fun m => optional_tail (m_params m)) (c_members c))
              repo_classes = true) by (vm_compute; reflexivity).
  apply forallb_Forall in H.
  eapply Forall_impl; [|exact H].
  intros c Hc. simpl in Hc. now apply forallb_Forall.
Qed.
